(** * The Conan manifest of aos_core_common_cpp (conan/conanfile.py)

    The manifest is a Python class, [AosCommonCpp], deriving from Conan's
    [ConanFile].  It has two class attributes ([settings], [generators]) and
    two methods ([requirements], [build_requirements]) whose bodies are
    straight-line calls of two methods inherited from the base class,
    [self.requires] and [self.tool_requires].

    The embedding keeps that shape: a method on [self] is a state-passing
    computation that either returns or raises, the inherited methods are an
    interface (a type class), and the two methods of the manifest are written
    once, against that interface. *)

From Stdlib Require Import String Ascii List Bool.
From stdpp Require Import gmap strings list.

Import ListNotations.
Local Open Scope string_scope.
Local Open Scope list_scope.

(** ** Python methods on [self]: state passing with exceptions *)

(** What a call yields: a value, or an exception carrying a message. *)
Inductive Outcome (A : Type) : Type :=
| Returned (a : A)
| Raised (e : string).
Arguments Returned {A} a.
Arguments Raised {A} e.

(** A method receives [self] and yields its outcome with [self] as the call
    left it.  What was written to [self] before an exception stays written,
    as in Python. *)
Definition Method (S A : Type) : Type := S -> Outcome A * S.

#[export] Instance method_ret {S : Type} : MRet (Method S) :=
  fun A (a : A) self => (Returned a, self).

(** One statement after another ([m ;; k], the value of an expression
    statement is dropped): an exception ends the body at once. *)
#[export] Instance method_bind {S : Type} : MBind (Method S) :=
  fun A B (k : A -> Method S B) (m : Method S A) self =>
    match m self with
    | (Returned a, self') => k a self'
    | (Raised e, self') => (Raised e, self')
    end.

Definition outcome {S A : Type} (m : Method S A) (self : S) : Outcome A := fst (m self).
Definition exec {S A : Type} (m : Method S A) (self : S) : S := snd (m self).

(** The call returned normally. *)
Definition returns {S A : Type} (m : Method S A) (self : S) : Prop :=
  exists a, outcome m self = Returned a.

(** ** The inherited interface *)

(** The two methods of [ConanFile] the manifest calls.  Both take a
    reference string and are called as statements. *)
Class ConanFile (S : Type) : Type := {
  requires : string -> Method S unit;
  tool_requires : string -> Method S unit
}.

(** ** The manifest *)

Module AosCommonCpp.

(** [settings = "os", "compiler", "build_type", "arch"] *)
Definition settings : list string := ["os"; "compiler"; "build_type"; "arch"].

(** [generators = "CMakeToolchain", "CMakeDeps"] *)
Definition generators : list string := ["CMakeToolchain"; "CMakeDeps"].

Section Methods.
Context {S : Type} `{ConanFile S}.

Definition requirements : Method S unit :=
  requires "gtest/1.14.0" ;;
  requires "poco/1.13.2" ;;
  requires "grpc/1.54.3".

Definition build_requirements : Method S unit :=
  tool_requires "protobuf/3.21.12" ;;
  tool_requires "grpc/1.54.3".

End Methods.

End AosCommonCpp.

(** ** What a declaration records *)

(** A declared requirement: the reference string as the manifest passed it,
    and whether it was declared as a build tool. *)
Record Requirement : Type := mkRequirement {
  ref : string;
  build : bool
}.

#[export] Instance Requirement_eq_dec : EqDecision Requirement.
Proof. solve_decision. Defined.

(** An instance of the manifest class as the methods see it through [self]:
    the two class attributes and the requirements declared so far, in call
    order, duplicates kept. *)
Record Manifest : Type := mkManifest {
  self_settings : list string;
  self_generators : list string;
  declared : list Requirement
}.

(** Modelled from the spec: the [ConanFile] base class belongs to the Conan
    tool, not to this repository.  Following the data model of the spec, a
    declaration is a reference tagged with the flag that tells a build-time
    tool from a linked requirement; declaring appends it to the store of the
    instance, touches nothing else and returns [None]. *)
Definition declare (is_build_tool : bool) (reference : string) : Method Manifest unit :=
  fun self =>
    (Returned tt,
     {| self_settings := self_settings self;
        self_generators := self_generators self;
        declared := declared self ++ [mkRequirement reference is_build_tool] |}).

#[export] Instance recording : ConanFile Manifest := {|
  requires := declare false;
  tool_requires := declare true
|}.

(** A fresh instance of [AosCommonCpp]: the class attributes, nothing
    declared yet. *)
Definition instantiate : Manifest :=
  {| self_settings := AosCommonCpp.settings;
     self_generators := AosCommonCpp.generators;
     declared := [] |}.

(** One evaluation of the manifest: both methods, in the order the resolver
    calls them. *)
Definition evaluate {S : Type} `{ConanFile S} : Method S unit :=
  AosCommonCpp.requirements ;; AosCommonCpp.build_requirements.

(** The declarations a call added to the store. *)
Definition declared_by {A : Type} (m : Method Manifest A) (self : Manifest) : list Requirement :=
  drop (length (declared self)) (declared (exec m self)).

(** ** References as name/version pairs *)

Definition slash : ascii := "/"%char.
Definition dot : ascii := "."%char.

(** Splits a reference at its first ['/']: the package name before it, the
    version after it. *)
Fixpoint name_version (reference : string) : option (string * string) :=
  match reference with
  | EmptyString => None
  | String c rest =>
      if Ascii.eqb c slash then Some (EmptyString, rest)
      else match name_version rest with
           | Some (name, version) => Some (String c name, version)
           | None => None
           end
  end.

(** The name/version pairs declared with the given flag. *)
Definition pairs (is_build_tool : bool) (l : list Requirement) : list (string * string) :=
  omap (fun d => if Bool.eqb (build d) is_build_tool then name_version (ref d) else None) l.

Definition linked_set (l : list Requirement) : gset (string * string) :=
  list_to_set (pairs false l).

Definition tool_set (l : list Requirement) : gset (string * string) :=
  list_to_set (pairs true l).

(** ** The shape of a reference *)

Fixpoint count_char (c : ascii) (s : string) : nat :=
  match s with
  | EmptyString => 0
  | String c' s' => (if Ascii.eqb c' c then 1 else 0) + count_char c s'
  end.

Definition is_digit (c : ascii) : bool :=
  (48 <=? nat_of_ascii c)%nat && (nat_of_ascii c <=? 57)%nat.

(** A non-empty run of decimal digits. *)
Inductive Digits : string -> Prop :=
| digits_one c : is_digit c = true -> Digits (String c EmptyString)
| digits_more c s : is_digit c = true -> Digits s -> Digits (String c s).

(** Non-empty runs of digits separated by single dots: [1.14.0], [3.21.12]. *)
Inductive DottedNumeric : string -> Prop :=
| dotted_last g : Digits g -> DottedNumeric g
| dotted_more g v : Digits g -> DottedNumeric v -> DottedNumeric (g +:+ String dot v).

(** The same as a scan over the characters; [in_group] tells that the
    character before was a digit. *)
Fixpoint dotted_from (in_group : bool) (s : string) : bool :=
  match s with
  | EmptyString => in_group
  | String c s' =>
      if is_digit c then dotted_from true s'
      else if Ascii.eqb c dot then in_group && dotted_from false s'
      else false
  end.

Definition dotted_numeric (s : string) : bool := dotted_from false s.

(** [name/version]: exactly one ['/'], a non-empty name before it, a dotted
    numeric version after it. *)
Definition WellFormedRef (reference : string) : Prop :=
  exists name version,
    reference = name +:+ String slash version /\
    name <> EmptyString /\
    count_char slash reference = 1 /\
    version <> EmptyString /\
    DottedNumeric version.

Definition well_formed_ref (reference : string) : bool :=
  match name_version reference with
  | Some (name, version) =>
      negb (String.eqb name EmptyString)
      && Nat.eqb (count_char slash version) 0
      && dotted_numeric version
  | None => false
  end.

(** ** Relations between instances and declarations *)

(** [after] carries the same settings and generators as [before], and keeps
    every requirement [before] had declared, in place. *)
Definition Unchanged (before after : Manifest) : Prop :=
  self_settings after = self_settings before /\
  self_generators after = self_generators before /\
  declared before `prefix_of` declared after.

(** The declarations whose reference carries the given version. *)
Definition at_version (version : string) (l : list Requirement) : list Requirement :=
  filter (fun d => snd <$> name_version (ref d) = Some version) l.

(** The build tool declared at 1.54.3 is a package of its own: its name
    differs from the name of every linked requirement. *)
Definition generator_is_separate_package (self : Manifest) : Prop :=
  forall tool linked : string * string,
    tool ∈ pairs true (declared (exec evaluate self)) ->
    linked ∈ pairs false (declared (exec evaluate self)) ->
    tool.2 = "1.54.3" ->
    tool.1 <> linked.1.

(** ** The calls a method makes *)




(** * Properties *)

(** ** The recording store *)

(** Runs the methods on the recording store, call by call. *)
Ltac run_recording :=
  unfold evaluate, AosCommonCpp.requirements, AosCommonCpp.build_requirements,
    outcome, exec, mbind, method_bind, requires, tool_requires, recording, declare;
  simpl.

Lemma declare_appends (b : bool) (r : string) (self : Manifest) :
  declared (exec (declare b r) self) = declared self ++ [mkRequirement r b].
Proof. reflexivity. Qed.

Lemma requirements_appends (self : Manifest) :
  declared (exec AosCommonCpp.requirements self) =
  declared self ++ [mkRequirement "gtest/1.14.0" false;
                    mkRequirement "poco/1.13.2" false;
                    mkRequirement "grpc/1.54.3" false].
Proof.
  destruct self as [st gen ds]. run_recording. by rewrite <- !app_assoc.
Qed.

Lemma build_requirements_appends (self : Manifest) :
  declared (exec AosCommonCpp.build_requirements self) =
  declared self ++ [mkRequirement "protobuf/3.21.12" true;
                    mkRequirement "grpc/1.54.3" true].
Proof.
  destruct self as [st gen ds]. run_recording. by rewrite <- !app_assoc.
Qed.

Lemma declared_by_requirements (self : Manifest) :
  declared_by AosCommonCpp.requirements self =
  [mkRequirement "gtest/1.14.0" false;
   mkRequirement "poco/1.13.2" false;
   mkRequirement "grpc/1.54.3" false].
Proof.
  unfold declared_by. rewrite requirements_appends. apply drop_app_length.
Qed.

Lemma declared_by_build_requirements (self : Manifest) :
  declared_by AosCommonCpp.build_requirements self =
  [mkRequirement "protobuf/3.21.12" true;
   mkRequirement "grpc/1.54.3" true].
Proof.
  unfold declared_by. rewrite build_requirements_appends. apply drop_app_length.
Qed.

Lemma evaluate_appends (self : Manifest) :
  declared (exec evaluate self) =
  declared self ++ declared_by AosCommonCpp.requirements self
                ++ declared_by AosCommonCpp.build_requirements self.
Proof.
  rewrite declared_by_requirements, declared_by_build_requirements.
  destruct self as [st gen ds]. run_recording. by rewrite <- !app_assoc.
Qed.

(** C1. Whatever instance it is called on, [requirements] declares exactly
    three requirements, all linked ones: gtest at 1.14.0, poco at 1.13.2 and
    grpc at 1.54.3.  It declares no build tool, and after a whole evaluation
    of a fresh instance the linked set is still these three pairs. *)
Theorem requirements_exactly (self : Manifest) :
  declared_by AosCommonCpp.requirements self =
    [mkRequirement "gtest/1.14.0" false;
     mkRequirement "poco/1.13.2" false;
     mkRequirement "grpc/1.54.3" false] /\
  linked_set (declared_by AosCommonCpp.requirements self) =
    {[ ("gtest", "1.14.0"); ("poco", "1.13.2"); ("grpc", "1.54.3") ]} /\
  size (linked_set (declared_by AosCommonCpp.requirements self)) = 3 /\
  tool_set (declared_by AosCommonCpp.requirements self) = ∅ /\
  linked_set (declared (exec evaluate instantiate)) =
    {[ ("gtest", "1.14.0"); ("poco", "1.13.2"); ("grpc", "1.54.3") ]}.
Proof.
  rewrite declared_by_requirements.
  split; [reflexivity|].
  assert (Hset : linked_set [mkRequirement "gtest/1.14.0" false;
                             mkRequirement "poco/1.13.2" false;
                             mkRequirement "grpc/1.54.3" false] =
                 {[ ("gtest", "1.14.0"); ("poco", "1.13.2"); ("grpc", "1.54.3") ]}).
  { unfold linked_set. cbn. set_solver. }
  split; [exact Hset|]. split.
  - unfold linked_set. rewrite size_list_to_set; [reflexivity|].
    apply (bool_decide_unpack _). by vm_compute.
  - split.
    + unfold tool_set. cbn. set_solver.
    + unfold linked_set. cbn. set_solver.
Qed.

(** C2. Whatever instance it is called on, [build_requirements] declares
    exactly two requirements, both build tools: protobuf (the protocol
    compiler) at 3.21.12 and grpc (which ships the code generator of the RPC
    framework) at 1.54.3.  It declares no linked requirement, and after a
    whole evaluation of a fresh instance the tool set is still these two
    pairs. *)
Theorem build_requirements_exactly (self : Manifest) :
  declared_by AosCommonCpp.build_requirements self =
    [mkRequirement "protobuf/3.21.12" true;
     mkRequirement "grpc/1.54.3" true] /\
  tool_set (declared_by AosCommonCpp.build_requirements self) =
    {[ ("protobuf", "3.21.12"); ("grpc", "1.54.3") ]} /\
  size (tool_set (declared_by AosCommonCpp.build_requirements self)) = 2 /\
  linked_set (declared_by AosCommonCpp.build_requirements self) = ∅ /\
  tool_set (declared (exec evaluate instantiate)) =
    {[ ("protobuf", "3.21.12"); ("grpc", "1.54.3") ]}.
Proof.
  rewrite declared_by_build_requirements.
  split; [reflexivity|]. split; [|split; [|split]].
  - unfold tool_set. cbn. set_solver.
  - unfold tool_set. rewrite size_list_to_set; [reflexivity|].
    apply (bool_decide_unpack _). by vm_compute.
  - unfold linked_set. cbn. set_solver.
  - unfold tool_set. cbn. set_solver.
Qed.

(** C4. The settings axes the manifest declares are exactly os, compiler,
    build_type and arch: four names, none twice, and they are what a fresh
    instance carries. *)
Theorem settings_exactly :
  (list_to_set AosCommonCpp.settings : gset string) =
    {[ "os"; "compiler"; "build_type"; "arch" ]} /\
  NoDup AosCommonCpp.settings /\
  length AosCommonCpp.settings = 4 /\
  self_settings instantiate = AosCommonCpp.settings.
Proof.
  split; [|split; [|split]].
  - unfold AosCommonCpp.settings. cbn. set_solver.
  - apply (bool_decide_unpack _). by vm_compute.
  - reflexivity.
  - reflexivity.
Qed.

(** C5. The generators the manifest declares are exactly the toolchain
    generator, CMakeToolchain, and the dependency-path generator, CMakeDeps:
    two names, none twice, and they are what a fresh instance carries. *)
Theorem generators_exactly :
  (list_to_set AosCommonCpp.generators : gset string) =
    {[ "CMakeToolchain"; "CMakeDeps" ]} /\
  NoDup AosCommonCpp.generators /\
  length AosCommonCpp.generators = 2 /\
  self_generators instantiate = AosCommonCpp.generators.
Proof.
  split; [|split; [|split]].
  - unfold AosCommonCpp.generators. cbn. set_solver.
  - apply (bool_decide_unpack _). by vm_compute.
  - reflexivity.
  - reflexivity.
Qed.

(** C9. The linked set and the tool set overlap: what [requirements] and
    [build_requirements] both declare is the single pair grpc at 1.54.3,
    passed as the same reference string in both roles. *)
Theorem grpc_in_both_roles (self : Manifest) :
  linked_set (declared_by AosCommonCpp.requirements self)
    ∩ tool_set (declared_by AosCommonCpp.build_requirements self)
  = {[ ("grpc", "1.54.3") ]} /\
  mkRequirement "grpc/1.54.3" false ∈ declared_by AosCommonCpp.requirements self /\
  mkRequirement "grpc/1.54.3" true ∈ declared_by AosCommonCpp.build_requirements self.
Proof.
  rewrite declared_by_requirements, declared_by_build_requirements.
  split; [|split].
  - unfold linked_set, tool_set. cbn.
    apply set_eq. intros [n v].
    rewrite elem_of_intersection, !elem_of_union, !elem_of_singleton, elem_of_empty.
    split.
    + intros [[H1|[H1|[H1|[]]]] [H2|[H2|[]]]]; congruence.
    + intros ->. split; [right; right; left|right; left]; reflexivity.
  - set_solver.
  - set_solver.
Qed.

(** C3, as stated, fails: on a fresh instance the build tool declared at
    1.54.3 is grpc, the very package the manifest also links. *)
Lemma generator_is_not_separate_package :
  ~ generator_is_separate_package instantiate.
Proof.
  intros Hsep.
  apply (Hsep ("grpc", "1.54.3") ("grpc", "1.54.3")); try reflexivity.
  - run_recording. set_solver.
  - run_recording. set_solver.
Qed.

(** C3, amended. The build tool declared at version 1.54.3 is the single
    declaration of grpc/1.54.3 with the build-tool flag set; the linked
    requirement at that version is the declaration of the same reference
    with the flag cleared.  The two name the same package at the same version
    and differ in the flag only. *)
Theorem rpc_tool_same_package (self : Manifest) :
  at_version "1.54.3" (declared_by AosCommonCpp.build_requirements self) =
    [mkRequirement "grpc/1.54.3" true] /\
  at_version "1.54.3" (declared_by AosCommonCpp.requirements self) =
    [mkRequirement "grpc/1.54.3" false] /\
  name_version "grpc/1.54.3" = Some ("grpc", "1.54.3") /\
  mkRequirement "grpc/1.54.3" true <> mkRequirement "grpc/1.54.3" false.
Proof.
  rewrite declared_by_requirements, declared_by_build_requirements.
  split; [|split; [|split]].
  - by vm_compute.
  - by vm_compute.
  - reflexivity.
  - discriminate.
Qed.

(** ** Sequencing, for any implementation of the interface *)

Section Sequencing.
Context {S A B : Type}.
Implicit Types (m : Method S A) (k : Method S B).

(** A body whose statements each relate the instance before to the instance
    after does so as a whole, whether or not a statement raises. *)
Lemma seq_related (R : relation S) `{!Transitive R} m k :
  (forall self, R self (exec m self)) ->
  (forall self, R self (exec k self)) ->
  forall self, R self (exec (m ;; k) self).
Proof.
  intros Hm Hk self. specialize (Hm self).
  unfold exec, mbind, method_bind in *.
  destruct (m self) as [[a|e] self']; simpl in *.
  - transitivity self'; [exact Hm|]. apply Hk.
  - exact Hm.
Qed.

(** A body whose statements all return, returns. *)
Lemma seq_returns m k :
  (forall self, returns m self) ->
  (forall self, returns k self) ->
  forall self, returns (m ;; k) self.
Proof.
  intros Hm Hk self. destruct (Hm self) as [a Ha].
  unfold returns, outcome, mbind, method_bind in *.
  destruct (m self) as [[a'|e] self']; simpl in *; [|discriminate].
  apply Hk.
Qed.

(** An exception that leaves a body was raised by one of its statements. *)
Lemma seq_raised m k self e :
  outcome (m ;; k) self = Raised e ->
  outcome m self = Raised e \/ exists self', outcome k self' = Raised e.
Proof.
  unfold outcome, mbind, method_bind.
  destruct (m self) as [[a|e'] self']; simpl; intros He.
  - right. exists self'. exact He.
  - left. injection He as ->. reflexivity.
Qed.

End Sequencing.

Section AnyConanFile.
Context {S : Type} `{ConanFile S}.

(** The methods of the manifest change the instance through the inherited
    calls only: a transitive relation every inherited call respects is
    respected by both methods and by a whole evaluation. *)
Lemma methods_related (R : relation S) `{!Transitive R} :
  (forall r self, R self (exec (requires r) self)) ->
  (forall r self, R self (exec (tool_requires r) self)) ->
  forall self,
    R self (exec AosCommonCpp.requirements self) /\
    R self (exec AosCommonCpp.build_requirements self) /\
    R self (exec evaluate self).
Proof.
  intros Hreq Htool.
  assert (H1 : forall self, R self (exec AosCommonCpp.requirements self)).
  { unfold AosCommonCpp.requirements. repeat apply seq_related; auto. }
  assert (H2 : forall self, R self (exec AosCommonCpp.build_requirements self)).
  { unfold AosCommonCpp.build_requirements. repeat apply seq_related; auto. }
  intros self. split; [apply H1|split; [apply H2|]].
  unfold evaluate. apply seq_related; auto.
Qed.

End AnyConanFile.

#[export] Instance Unchanged_trans : Transitive Unchanged.
Proof.
  intros x y z (Hs1 & Hg1 & Hp1) (Hs2 & Hg2 & Hp2).
  repeat split; [congruence|congruence|by etrans].
Qed.

Lemma declare_unchanged (b : bool) (r : string) (self : Manifest) :
  Unchanged self (exec (declare b r) self).
Proof.
  repeat split. simpl. by apply prefix_app_r.
Qed.

Lemma linked_set_app (l1 l2 : list Requirement) :
  linked_set (l1 ++ l2) = linked_set l1 ∪ linked_set l2.
Proof. unfold linked_set, pairs. by rewrite omap_app, list_to_set_app_L. Qed.

Lemma tool_set_app (l1 l2 : list Requirement) :
  tool_set (l1 ++ l2) = tool_set l1 ∪ tool_set l2.
Proof. unfold tool_set, pairs. by rewrite omap_app, list_to_set_app_L. Qed.

Lemma declared_by_evaluate (self : Manifest) :
  declared_by evaluate self =
  [mkRequirement "gtest/1.14.0" false;
   mkRequirement "poco/1.13.2" false;
   mkRequirement "grpc/1.54.3" false;
   mkRequirement "protobuf/3.21.12" true;
   mkRequirement "grpc/1.54.3" true].
Proof.
  unfold declared_by. rewrite evaluate_appends.
  rewrite declared_by_requirements, declared_by_build_requirements.
  apply drop_app_length.
Qed.

Lemma evaluate_declared (self : Manifest) :
  declared (exec evaluate self) = declared self ++ declared_by evaluate self.
Proof.
  rewrite evaluate_appends, declared_by_evaluate.
  by rewrite declared_by_requirements, declared_by_build_requirements.
Qed.

(** C6. Evaluating the manifest is deterministic: any two evaluations, on
    whatever instances, declare the same requirements, hence the same linked
    set and the same tool set.  It is idempotent on the sets: evaluating an
    instance a second time leaves both sets as the first evaluation left
    them. *)
Theorem evaluation_deterministic (self1 self2 : Manifest) :
  declared_by evaluate self1 = declared_by evaluate self2 /\
  linked_set (declared_by evaluate self1) = linked_set (declared_by evaluate self2) /\
  tool_set (declared_by evaluate self1) = tool_set (declared_by evaluate self2) /\
  linked_set (declared (exec evaluate (exec evaluate self1))) =
    linked_set (declared (exec evaluate self1)) /\
  tool_set (declared (exec evaluate (exec evaluate self1))) =
    tool_set (declared (exec evaluate self1)).
Proof.
  rewrite !declared_by_evaluate.
  split; [reflexivity|]. split; [reflexivity|]. split; [reflexivity|].
  rewrite (evaluate_declared (exec evaluate self1)), (evaluate_declared self1).
  rewrite !declared_by_evaluate, !linked_set_app, !tool_set_app.
  by rewrite <- !(assoc_L (∪)), !(idemp_L (∪)).
Qed.

(** C7. Neither method, nor a whole evaluation, mutates what the manifest
    declared: on every instance, the settings and the generators are the
    same afterward and every requirement declared before is still there,
    in place. *)
Theorem manifest_not_mutated (self : Manifest) :
  Unchanged self (exec AosCommonCpp.requirements self) /\
  Unchanged self (exec AosCommonCpp.build_requirements self) /\
  Unchanged self (exec evaluate self).
Proof.
  apply (methods_related Unchanged); intros r s; apply declare_unchanged.
Qed.

Lemma declare_returns (b : bool) (r : string) (self : Manifest) :
  returns (declare b r) self.
Proof. by exists tt. Qed.

(** C8. The manifest has no error condition of its own: under any
    implementation of the inherited interface whose two calls return, both
    methods and a whole evaluation return, on every instance. *)
Theorem no_error_of_its_own {S : Type} `{ConanFile S} :
  (forall r self, returns (requires r) self) ->
  (forall r self, returns (tool_requires r) self) ->
  forall self,
    returns AosCommonCpp.requirements self /\
    returns AosCommonCpp.build_requirements self /\
    returns evaluate self.
Proof.
  intros Hreq Htool.
  assert (H1 : forall self, returns AosCommonCpp.requirements self).
  { unfold AosCommonCpp.requirements. repeat apply seq_returns; auto. }
  assert (H2 : forall self, returns AosCommonCpp.build_requirements self).
  { unfold AosCommonCpp.build_requirements. repeat apply seq_returns; auto. }
  intros self. split; [apply H1|split; [apply H2|]].
  unfold evaluate. apply seq_returns; auto.
Qed.

(** The other way round: an exception that leaves an evaluation was raised
    by one of the inherited calls. *)
Lemma raised_by_inherited_call {S : Type} `{ConanFile S} (self : S) (e : string) :
  outcome evaluate self = Raised e ->
  exists r self',
    outcome (requires r) self' = Raised e \/
    outcome (tool_requires r) self' = Raised e.
Proof.
  unfold evaluate, AosCommonCpp.requirements, AosCommonCpp.build_requirements.
  intros He.
  repeat match goal with
         | Hr : outcome (_ ;; _) _ = Raised _ |- _ =>
             apply seq_raised in Hr as [Hr|[? Hr]]
         end; eauto.
Qed.

(** On the recording store the inherited calls return, so a fresh instance
    is evaluated without an exception. *)
Lemma no_error_of_its_own_witness :
  (forall r self, returns (declare false r) self) /\
  (forall r self, returns (declare true r) self) /\
  returns AosCommonCpp.requirements instantiate /\
  returns AosCommonCpp.build_requirements instantiate /\
  returns evaluate instantiate.
Proof.
  split; [exact (declare_returns false)|].
  split; [exact (declare_returns true)|].
  apply (no_error_of_its_own (H := recording)
           (declare_returns false) (declare_returns true) instantiate).
Defined.

(** ** References *)

Lemma append_cons (c : ascii) (s1 s2 : string) :
  String c s1 +:+ s2 = String c (s1 +:+ s2).
Proof. reflexivity. Qed.

Lemma append_empty_r (s : string) : s +:+ EmptyString = s.
Proof.
  induction s as [|c s IH]; [reflexivity|].
  by rewrite append_cons, IH.
Qed.

Lemma append_snoc (g : string) (c : ascii) (s : string) :
  (g +:+ String c EmptyString) +:+ s = g +:+ String c s.
Proof.
  induction g as [|c' g IH]; [reflexivity|].
  by rewrite !append_cons, IH.
Qed.

Lemma count_char_append (c : ascii) (s1 s2 : string) :
  count_char c (s1 +:+ s2) = count_char c s1 + count_char c s2.
Proof.
  induction s1 as [|c' s1 IH]; [reflexivity|].
  rewrite append_cons. simpl. rewrite IH. lia.
Qed.

Lemma Digits_snoc (g : string) (c : ascii) :
  Digits g -> is_digit c = true -> Digits (g +:+ String c EmptyString).
Proof.
  intros Hg Hc. induction Hg as [c' Hc'|c' s Hc' Hs IH].
  - rewrite append_cons. apply digits_more; [exact Hc'|]. by apply digits_one.
  - rewrite append_cons. by apply digits_more.
Qed.

(** The scan accepts dotted numeric strings only. *)
Lemma dotted_from_sound (s : string) :
  (dotted_from false s = true -> DottedNumeric s) /\
  (dotted_from true s = true -> forall g, Digits g -> DottedNumeric (g +:+ s)).
Proof.
  induction s as [|c s [IHout IHin]]; simpl.
  - split; [discriminate|].
    intros _ g Hg. rewrite append_empty_r. by apply dotted_last.
  - destruct (is_digit c) eqn:Hc.
    + split.
      * intros Hs. apply (IHin Hs (String c EmptyString)). by apply digits_one.
      * intros Hs g Hg. rewrite <- append_snoc. apply IHin; [exact Hs|].
        by apply Digits_snoc.
    + destruct (Ascii.eqb c dot) eqn:Hdot; [|split; discriminate].
      apply Ascii.eqb_eq in Hdot. subst c. split; [discriminate|].
      simpl. intros Hs g Hg. apply dotted_more; [exact Hg|]. by apply IHout.
Qed.

Lemma DottedNumeric_nonempty (v : string) : DottedNumeric v -> v <> EmptyString.
Proof.
  intros [g Hg|g v' Hg _]; destruct Hg; discriminate.
Qed.

(** The split gives back the two sides of the first ['/']. *)
Lemma name_version_spec (r name version : string) :
  name_version r = Some (name, version) ->
  r = name +:+ String slash version /\ count_char slash name = 0.
Proof.
  revert name. induction r as [|c r IH]; simpl; intros name Hsplit; [discriminate|].
  destruct (Ascii.eqb c slash) eqn:Hc.
  - apply Ascii.eqb_eq in Hc. injection Hsplit as <- <-. by subst c.
  - destruct (name_version r) as [[n v]|]; [|discriminate].
    injection Hsplit as <- <-. destruct (IH n eq_refl) as [-> Hn].
    split; [reflexivity|]. simpl. by rewrite Hc.
Qed.

Lemma well_formed_ref_sound (r : string) :
  well_formed_ref r = true -> WellFormedRef r.
Proof.
  unfold well_formed_ref.
  destruct (name_version r) as [[name version]|] eqn:Hsplit; [|discriminate].
  intros Hwf. apply andb_prop in Hwf as [Hwf Hdotted].
  apply andb_prop in Hwf as [Hname Hcount].
  apply name_version_spec in Hsplit as [-> Hn].
  exists name, version. repeat split.
  - intros ->. discriminate.
  - rewrite count_char_append, Hn. simpl.
    apply Nat.eqb_eq in Hcount. by rewrite Hcount.
  - apply DottedNumeric_nonempty. by apply dotted_from_sound.
  - by apply dotted_from_sound.
Qed.

(** C10. Every reference the manifest declares, in [requirements] or in
    [build_requirements], has the shape name/version: exactly one ['/'], a
    non-empty name before it and a non-empty dotted numeric version after
    it. *)
Theorem references_well_formed (self : Manifest) :
  Forall WellFormedRef
    (ref <$> declared_by AosCommonCpp.requirements self
             ++ declared_by AosCommonCpp.build_requirements self).
Proof.
  rewrite declared_by_requirements, declared_by_build_requirements.
  repeat constructor; by apply well_formed_ref_sound.
Qed.

(** ** The calls made, under any implementation of the interface *)





(** ** Across the two methods *)

(** X3. No package is declared at two versions: among the name/version
    pairs of everything an evaluation declares, linked or build tool, two
    pairs with the same name carry the same version. *)
Theorem one_version_per_package (self : Manifest) (p q : string * string) :
  p ∈ linked_set (declared_by evaluate self) ∪ tool_set (declared_by evaluate self) ->
  q ∈ linked_set (declared_by evaluate self) ∪ tool_set (declared_by evaluate self) ->
  p.1 = q.1 ->
  p.2 = q.2.
Proof.
  rewrite declared_by_evaluate. unfold linked_set, tool_set. cbn.
  rewrite !elem_of_union, !elem_of_singleton, !elem_of_empty.
  destruct p as [pn pv], q as [qn qv]. simpl.
  intros Hp Hq Hname.
  destruct Hp as [[Hp|[Hp|[Hp|[]]]]|[Hp|[Hp|[]]]];
    destruct Hq as [[Hq|[Hq|[Hq|[]]]]|[Hq|[Hq|[]]]];
    injection Hp as -> ->; injection Hq as -> ->;
    first [reflexivity | discriminate Hname].
Qed.

(** The package declared in both roles, grpc, has the one version 1.54.3. *)
Lemma one_version_per_package_witness :
  ("grpc", "1.54.3") ∈ linked_set (declared_by evaluate instantiate) /\
  ("grpc", "1.54.3") ∈ tool_set (declared_by evaluate instantiate) /\
  ("grpc", "1.54.3").2 = ("grpc", "1.54.3").2.
Proof.
  assert (Hlinked : ("grpc", "1.54.3") ∈ linked_set (declared_by evaluate instantiate)).
  { rewrite declared_by_evaluate. unfold linked_set. cbn. set_solver. }
  assert (Htool : ("grpc", "1.54.3") ∈ tool_set (declared_by evaluate instantiate)).
  { rewrite declared_by_evaluate. unfold tool_set. cbn. set_solver. }
  split; [exact Hlinked|]. split; [exact Htool|].
  apply (one_version_per_package instantiate ("grpc", "1.54.3") ("grpc", "1.54.3")).
  - apply elem_of_union_l, Hlinked.
  - apply elem_of_union_r, Htool.
  - reflexivity.
Defined.

